(** * speech_recognition_system.py: a shallow embedding

    The script is sequential glue code: it reads a path from stdin, checks
    that the file exists, optionally converts MP3 to WAV with pydub, reads
    the WAV header with [wave], sends the audio to Google's Web Speech API
    through [speech_recognition], and writes a report file.

    The model keeps the code's own steps and names.  Python state is made
    explicit: a file system (path to file data), the stdout/network log and
    a counter of clock reads, threaded through a state and exception monad.
    The third-party libraries and the remote service are opaque operations
    (Section variables), as the program only calls them.  Python floats are
    IEEE binary64, modelled with the core library's [SpecFloat]. *)

From Stdlib Require Import String Ascii List ZArith Bool Lia.
From Corelib Require Import SpecFloat.
Import ListNotations.
Open Scope string_scope.
Open Scope Z_scope.

(** ** Python string operations (ASCII strings) *)

(** [str.isspace] on ASCII: \t \n \x0b \x0c \r, \x1c-\x1f and space. *)
Definition py_isspace (c : ascii) : bool :=
  let n := nat_of_ascii c in
  ((9 <=? n) && (n <=? 13))%nat || ((28 <=? n) && (n <=? 32))%nat.

Fixpoint drop_space (l : list ascii) : list ascii :=
  match l with
  | [] => []
  | c :: l' => if py_isspace c then drop_space l' else l
  end.

(** [s.strip()]: whitespace removed at both ends. *)
Definition py_strip (s : string) : string :=
  string_of_list_ascii
    (rev (drop_space (rev (drop_space (list_ascii_of_string s))))).

Definition ascii_lower (c : ascii) : ascii :=
  let n := nat_of_ascii c in
  if ((65 <=? n) && (n <=? 90))%nat then ascii_of_nat (n + 32) else c.

(** [s.lower()] *)
Fixpoint py_lower (s : string) : string :=
  match s with
  | EmptyString => EmptyString
  | String c s' => String (ascii_lower c) (py_lower s')
  end.

(** [s.split(sep)] for a one-character separator: never empty. *)
Fixpoint py_split (sep : ascii) (s : string) : list string :=
  match s with
  | EmptyString => [EmptyString]
  | String c s' =>
      let r := py_split sep s' in
      if Ascii.eqb c sep then EmptyString :: r
      else match r with
           | h :: t => String c h :: t
           | [] => [String c EmptyString]
           end
  end.

(** [xs[-1]] on a non-empty list. *)
Definition py_last (l : list string) : string := last l EmptyString.

(** [s.replace(old, new)] for a non-empty [old]: every non-overlapping
    occurrence, scanned left to right, is replaced.  [skip] counts the
    characters of an occurrence already replaced. *)
Fixpoint py_replace_aux (old new : string) (skip : nat) (s : string) : string :=
  match s with
  | EmptyString => EmptyString
  | String c s' =>
      match skip with
      | S k => py_replace_aux old new k s'
      | O =>
          if String.prefix old s
          then new ++ py_replace_aux old new (pred (String.length old)) s'
          else String c (py_replace_aux old new O s')
      end
  end.

Definition py_replace (s old new : string) : string :=
  py_replace_aux old new O s.

(** ["=" * n] *)
Fixpoint str_repeat (n : nat) (s : string) : string :=
  match n with
  | O => EmptyString
  | S n' => s ++ str_repeat n' s
  end.

Definition digit_char (d : Z) : ascii := ascii_of_nat (48 + Z.to_nat d).

Fixpoint digits_of (fuel : nat) (n : Z) (acc : string) : string :=
  match fuel with
  | O => acc
  | S f =>
      let acc' := String (digit_char (n mod 10)%Z) acc in
      if Z.ltb n 10 then acc' else digits_of f (n / 10)%Z acc'
  end.

(** [str(n)] for a Python int. *)
Definition py_str_int (n : Z) : string :=
  if Z.ltb n 0 then "-" ++ digits_of (S (Pos.to_nat (Pos.size (Z.to_pos (- n))))) (- n)%Z ""
  else digits_of (S (Pos.to_nat (Pos.size (Z.to_pos n)))) n "".

(** Zero-padded to [w] digits, as strftime does for its fields. *)
Fixpoint pad_left (w : nat) (s : string) : string :=
  match w with
  | O => s
  | S w' => if (String.length s <? S w')%nat then pad_left w' ("0" ++ s) else s
  end.

(** ** Python floats: IEEE binary64 *)

Definition f64 := spec_float.
Definition prec64 : Z := 53.
Definition emax64 : Z := 1024.

(** [float(n)] for an int: round to nearest, ties to even. *)
Definition f64_of_Z (n : Z) : f64 := binary_normalize prec64 emax64 n 0 false.

Definition f64_div (x y : f64) : f64 := SFdiv prec64 emax64 x y.

(** [num / den] rounded to the nearest integer, ties to even ([den > 0]). *)
Definition round_half_even_div (num den : Z) : Z :=
  let q := num / den in
  let r := num mod den in
  match Z.compare (2 * r) den with
  | Lt => q
  | Gt => q + 1
  | Eq => if Z.even q then q else q + 1
  end.

(** The exact value [m * 2^e] times 100, rounded half to even: the
    two-decimal digit string CPython's [round(x, 2)] produces through
    [_Py_dg_dtoa] (mode 3), as an integer count of hundredths. *)
Definition hundredths_of (m : positive) (e : Z) : Z :=
  if Z.leb 0 e then (Zpos m * 2 ^ e * 100)%Z
  else round_half_even_div (Zpos m * 100) (2 ^ (- e)).

(** [_Py_dg_strtod] of the digit string: the binary64 nearest to [k / 100]
    (a correctly rounded division of exact operands), with sign [s]. *)
Definition f64_of_hundredths (s : bool) (k : Z) : f64 :=
  match k with
  | Z0 => S754_zero s
  | Zpos p => SFdiv prec64 emax64 (S754_finite s p 0) (S754_finite false 100 0)
  | Zneg _ => S754_nan
  end.

(** [round(x, 2)] on a float: infinities, NaN and zeros are returned as
    they are; a finite [x] is rounded on its exact binary value. *)
Definition py_round2 (x : f64) : f64 :=
  match x with
  | S754_finite s m e => f64_of_hundredths s (hundredths_of m e)
  | _ => x
  end.

(** Python's [x < 0] on a float: false for zeros (also [-0.0]) and NaN. *)
Definition f64_lt0 (x : f64) : bool :=
  match x with
  | S754_finite s _ _ | S754_infinity s => s
  | _ => false
  end.

(** A finite float (zero included). *)
Definition f64_finite (x : f64) : bool :=
  match x with
  | S754_zero _ | S754_finite _ _ _ => true
  | _ => false
  end.

(** A finite non-zero float. *)
Definition f64_finite_nonzero (x : f64) : bool :=
  match x with
  | S754_finite _ _ _ => true
  | _ => false
  end.

(** A number as [get_audio_duration] returns it: the int [0] of its
    handler or a float. *)
Inductive pynum := PyInt (n : Z) | PyFloat (x : f64).

Definition pynum_lt0 (v : pynum) : bool :=
  match v with
  | PyInt n => Z.ltb n 0
  | PyFloat x => f64_lt0 x
  end.

(** ** Exceptions and the state/exception monad *)

(** A raised exception: its class name and [str(e)]. *)
Inductive pyexc := PyExc (cls : string) (msg : string).

Definition exc_cls (e : pyexc) : string := let 'PyExc c _ := e in c.
Definition exc_msg (e : pyexc) : string := let 'PyExc _ m := e in m.

Inductive outcome (A : Type) := Ret (a : A) | Raise (e : pyexc).
Arguments Ret {A} a.
Arguments Raise {A} e.

Definition M (S A : Type) : Type := S -> outcome A * S.

Definition ret {S A} (a : A) : M S A := fun s => (Ret a, s).
Definition raise {S A} (e : pyexc) : M S A := fun s => (Raise e, s).
Definition bind {S A B} (m : M S A) (k : A -> M S B) : M S B :=
  fun s => match m s with
           | (Ret a, s') => k a s'
           | (Raise e, s') => (Raise e, s')
           end.

(** [try: m except ...: h(e)]; the handler decides which classes it takes
    and re-raises the others. *)
Definition try_except {S A} (m : M S A) (h : pyexc -> M S A) : M S A :=
  fun s => match m s with
           | (Ret a, s') => (Ret a, s')
           | (Raise e, s') => h e s'
           end.

Notation "x <- m ;; k" := (bind m (fun x => k))
  (at level 61, m at next level, right associativity).
Notation "m ;;; k" := (bind m (fun _ => k))
  (at level 61, right associativity).

(** [float(n)] on an int: [OverflowError] beyond the binary64 range. *)
Definition py_float_of_int {S} (n : Z) : M S f64 :=
  match f64_of_Z n with
  | S754_infinity _ => raise (PyExc "OverflowError" "int too large to convert to float")
  | x => ret x
  end.

(** [x / y] on floats: [ZeroDivisionError] on a zero divisor. *)
Definition py_float_div {S} (x y : f64) : M S f64 :=
  match y with
  | S754_zero _ => raise (PyExc "ZeroDivisionError" "float division by zero")
  | _ => ret (f64_div x y)
  end.

(** A newline character (Rocq string literals have no escapes). *)
Definition nl : string := String (ascii_of_nat 10) EmptyString.

(** [print(s)] writes [s] and a newline. *)
Definition println (s : string) : string := s ++ nl.

(** ** Dates: [datetime.now().strftime('%Y-%m-%d %H:%M:%S')] *)

Record datetime := mkDatetime {
  dt_year : Z; dt_month : Z; dt_day : Z;
  dt_hour : Z; dt_minute : Z; dt_second : Z }.

(** The fields zero-padded: the year to four digits (CPython's rendering
    of [%Y] since 3.13), the others to two. *)
Definition strftime_report (d : datetime) : string :=
  pad_left 4 (py_str_int (dt_year d)) ++ "-" ++
  pad_left 2 (py_str_int (dt_month d)) ++ "-" ++
  pad_left 2 (py_str_int (dt_day d)) ++ " " ++
  pad_left 2 (py_str_int (dt_hour d)) ++ ":" ++
  pad_left 2 (py_str_int (dt_minute d)) ++ ":" ++
  pad_left 2 (py_str_int (dt_second d)).

(** ** The program's world *)

(** A regular file: text written by the program, or opaque bytes
    ([Content]) that the audio libraries interpret. *)
Inductive fdata (Content : Type) :=
  | FText (encoding : string) (text : string)
  | FBlob (c : Content).
Arguments FText {Content} encoding text.
Arguments FBlob {Content} c.

(** Observable effects, newest first: text written to stdout, and the
    requests sent to the recognition service. *)
Inductive event (AudioData : Type) :=
  | EvStdout (s : string)
  | EvRequest (a : AudioData).
Arguments EvStdout {AudioData} s.
Arguments EvRequest {AudioData} a.

Record state (Content AudioData : Type) := mkState {
  st_fs : string -> option (fdata Content);   (** regular files, by path *)
  st_log : list (event AudioData);
  st_clock : nat                    (** calls of [datetime.now()] so far *)
}.
Arguments mkState {Content AudioData} st_fs st_log st_clock.
Arguments st_fs {Content AudioData} s _.
Arguments st_log {Content AudioData} s.
Arguments st_clock {Content AudioData} s.

(** The response of the remote service to [recognize_google]. *)
Inductive service_response :=
  | SrvText (t : string)      (** a hypothesis *)
  | SrvNoMatch                (** no hypothesis: [sr.UnknownValueError] *)
  | SrvFailure (d : string).  (** transport or service failure:
                                  [sr.RequestError] with [str(e) = d] *)

(** What the program calls but does not define: the [wave], [pydub] and
    [speech_recognition] libraries, the remote service, the file system's
    permissions, the clock and the float [repr].  [Segment] is decoded MP3
    audio ([pydub.AudioSegment]), [AudioData] recorded audio
    ([sr.AudioData]). *)
Class Env (Content Segment AudioData : Type) := {
  (** [wave.open(path, 'r')] then [getnframes()], [getframerate()]: both
      unsigned header fields, or the exception [wave.open] raises. *)
  wave_read : fdata Content -> pyexc + (N * N);
  (** [AudioSegment.from_mp3(path)]: decoded audio or a codec error. *)
  from_mp3 : fdata Content -> pyexc + Segment;
  (** The WAV bytes [segment.export(path, format="wav")] writes. *)
  export_wav : Segment -> Content;
  (** [with sr.AudioFile(path) as source: recognizer.record(source)]. *)
  sr_record : fdata Content -> pyexc + AudioData;
  (** The answer of Google's Web Speech API to one request. *)
  google : AudioData -> service_response;
  (** Whether [open(path, "w")] succeeds (directory exists, permissions). *)
  can_open_w : string -> bool;
  (** The wall clock at the [n]-th call of [datetime.now()]. *)
  clock : nat -> datetime;
  (** [repr] of a float, which an f-string uses for [{duration}]. *)
  float_repr : f64 -> string
}.

(** ** The program *)

Section Tool.

Context {Content Segment AudioData : Type} `{Env Content Segment AudioData}.

Local Abbreviation PM := (M (state Content AudioData)).

(** *** Primitive effects *)

Definition print (s : string) : PM unit :=
  fun st => (Ret tt, mkState (st_fs st) (EvStdout (println s) :: st_log st)
                             (st_clock st)).

(** [input(prompt)] writes the prompt; the line read is the argument. *)
Definition prompt (s : string) : PM unit :=
  fun st => (Ret tt, mkState (st_fs st) (EvStdout s :: st_log st) (st_clock st)).

Definition now : PM datetime :=
  fun st => (Ret (clock (st_clock st)),
             mkState (st_fs st) (st_log st) (S (st_clock st))).

Definition no_such_file (path : string) : pyexc :=
  PyExc "FileNotFoundError"
        ("[Errno 2] No such file or directory: '" ++ path ++ "'").

Definition read_file (path : string) : PM (fdata Content) :=
  fun st => match st_fs st path with
            | Some d => (Ret d, st)
            | None => (Raise (no_such_file path), st)
            end.

(** [os.path.isfile(path)] *)
Definition isfile (path : string) : PM bool :=
  fun st => (Ret (match st_fs st path with Some _ => true | None => false end), st).

Definition set_file (path : string) (d : fdata Content) : PM unit :=
  fun st => (Ret tt, mkState (fun q => if String.eqb q path then Some d else st_fs st q)
                             (st_log st) (st_clock st)).

(** [open(path, mode)] for writing: creates the file or truncates it. *)
Definition open_w (path enc : string) : PM unit :=
  if can_open_w path then set_file path (FText enc "")
  else raise (PyExc "PermissionError"
                    ("[Errno 13] Permission denied: '" ++ path ++ "'")).

(** [f.write(s)] on a text file opened by [open_w]. *)
Definition write_text (path s : string) : PM unit :=
  fun st => match st_fs st path with
            | Some (FText enc t) => set_file path (FText enc (t ++ s)) st
            | _ => (Raise (PyExc "ValueError" "I/O operation on closed file."), st)
            end.

Definition lift_sum {A} (r : pyexc + A) : PM A :=
  match r with
  | inl e => raise e
  | inr a => ret a
  end.

(** [recognizer.recognize_google(audio_data)]: one network request. *)
Definition recognize_google (a : AudioData) : PM string :=
  fun st =>
    let st' := mkState (st_fs st) (EvRequest a :: st_log st) (st_clock st) in
    match google a with
    | SrvText t => (Ret t, st')
    | SrvNoMatch => (Raise (PyExc "UnknownValueError" ""), st')
    | SrvFailure d => (Raise (PyExc "RequestError" d), st')
    end.

(** [f"{duration}"] *)
Definition py_str_num (v : pynum) : string :=
  match v with
  | PyInt n => py_str_int n
  | PyFloat x => float_repr x
  end.

(** *** get_audio_duration (lines 18-36) *)

Definition get_audio_duration (path : string) : PM pynum :=
  try_except
    (d <- read_file path ;;
     hdr <- lift_sum (wave_read d) ;;
     let '(frames, rate) := hdr in
     (* frames / float(rate): float(rate) first, then frames converted *)
     rate_f <- py_float_of_int (Z.of_N rate) ;;
     frames_f <- py_float_of_int (Z.of_N frames) ;;
     duration <- py_float_div frames_f rate_f ;;
     ret (PyFloat (py_round2 duration)))
    (fun e => print ("Error reading audio file: " ++ exc_msg e) ;;;
              ret (PyInt 0)).

(** *** transcribe_audio (lines 38-59) *)

Definition transcribe_audio (path : string) : PM string :=
  d <- read_file path ;;
  audio_data <- lift_sum (sr_record d) ;;
  print "Listening to audio..." ;;;
  try_except
    (print "Transcribing audio..." ;;;
     text <- recognize_google audio_data ;;
     ret text)
    (fun e =>
       if String.eqb (exc_cls e) "UnknownValueError"
       then ret "Could not understand the audio."
       else if String.eqb (exc_cls e) "RequestError"
       then ret ("Google API request failed: " ++ exc_msg e)
       else raise e).

(** *** save_transcription_report (lines 61-79) *)

Definition output_file : string := "transcription_output.txt".

Definition save_transcription_report (file_path : string) (duration : pynum)
    (transcription : string) : PM unit :=
  open_w output_file "utf-8" ;;;
  write_text output_file ("TRANSCRIPTION REPORT" ++ nl) ;;;
  write_text output_file (str_repeat 50 "=" ++ nl) ;;;
  write_text output_file ("File Name     : " ++ file_path ++ nl) ;;;
  write_text output_file ("Duration      : " ++ py_str_num duration ++ " seconds" ++ nl) ;;;
  t <- now ;;
  write_text output_file ("Processed At  : " ++ strftime_report t ++ nl ++ nl) ;;;
  write_text output_file ("Transcribed Text:" ++ nl) ;;;
  write_text output_file (transcription ++ nl) ;;;
  print (nl ++ "Transcription successfully saved to '" ++ output_file ++ "'").

(** [segment.export(path, format="wav")]: creates or overwrites [path]. *)
Definition export (path : string) (seg : Segment) : PM unit :=
  if can_open_w path then set_file path (FBlob (export_wav seg))
  else raise (PyExc "PermissionError"
                    ("[Errno 13] Permission denied: '" ++ path ++ "'")).

(** *** main (lines 81-132) *)

(** [file_name.split('.')[-1].lower()] (line 95) *)
Definition file_ext_of (file_name : string) : string :=
  py_lower (py_last (py_split "." file_name)).

(** Step 2 (lines 99-111): the path the later steps use, or [None] where
    [main] returns. *)
Definition convert_step (file_name file_ext : string) : PM (option string) :=
  if String.eqb file_ext "mp3" then
    (print (nl ++ "Converting MP3 to WAV format...") ;;;
     d <- read_file file_name ;;
     mp3_audio <- lift_sum (from_mp3 d) ;;
     let wav_file := py_replace file_name ".mp3" ".wav" in
     export wav_file mp3_audio ;;;
     print ("Conversion complete. New file: " ++ wav_file) ;;;
     ret (Some wav_file))
  else if String.eqb file_ext "wav" then ret (Some file_name)
  else
    (print "Unsupported file type. Please provide a .mp3 or .wav file." ;;;
     ret None).

(** Steps 3 to 6 (lines 113-132), on the path step 2 chose. *)
Definition process (file_path : string) : PM unit :=
  duration <- get_audio_duration file_path ;;
  print (nl ++ "Audio Duration: " ++ py_str_num duration ++ " seconds") ;;;
  transcription <- transcribe_audio file_path ;;
  print (nl ++ str_repeat 70 "=") ;;;
  print "TRANSCRIPTION REPORT" ;;;
  print (str_repeat 70 "=") ;;;
  print ("File Name     : " ++ file_path) ;;;
  print ("Duration      : " ++ py_str_num duration ++ " seconds") ;;;
  t <- now ;;
  print ("Processed At  : " ++ strftime_report t) ;;;
  print (nl ++ "Transcribed Text:" ++ nl) ;;;
  print transcription ;;;
  print (str_repeat 70 "=") ;;;
  save_transcription_report file_path duration transcription.

(** [main()], given the line the user types at the prompt. *)
Definition main (line : string) : PM unit :=
  print (nl ++ "Speech-to-Text Transcription Tool") ;;;
  print (str_repeat 50 "=") ;;;
  prompt "Enter the full path to your .wav or .mp3 file: " ;;;
  let file_name := py_strip line in
  ok <- isfile file_name ;;
  if negb ok then
    (print "Error: The specified file does not exist." ;;; ret tt)
  else
    (let file_ext := file_ext_of file_name in
     print (nl ++ "File detected: " ++ file_name) ;;;
     print ("File type     : " ++ file_ext) ;;;
     fp <- convert_step file_name file_ext ;;
     match fp with
     | None => ret tt
     | Some file_path => process file_path
     end).

End Tool.

(** ** Reference definitions from the spec's words *)

(** The report layout of the spec (section 6), line by line. *)
Definition spec_report (path secs ts text : string) : string :=
  "TRANSCRIPTION REPORT" ++ nl ++
  str_repeat 50 "=" ++ nl ++
  "File Name     : " ++ path ++ nl ++
  "Duration      : " ++ secs ++ " seconds" ++ nl ++
  "Processed At  : " ++ ts ++ nl ++
  nl ++
  "Transcribed Text:" ++ nl ++
  text ++ nl.

(** "[frames / rate] rounded to two decimal places", rounding the exact
    quotient (ties to even), as a float. *)
Definition spec_duration (frames rate : N) : f64 :=
  f64_of_hundredths false
    (round_half_even_div (100 * Z.of_N frames) (Z.of_N rate)).

(** A replacement of the first occurrence of [old] only. *)
Fixpoint replace_first (old new s : string) : string :=
  match s with
  | EmptyString => EmptyString
  | String c s' =>
      if String.prefix old s
      then new ++ substring (String.length old)
                            (String.length s - String.length old) s
      else String c (replace_first old new s')
  end.

(** Whether [old] occurs in [s]. *)
Fixpoint occurs (old s : string) : bool :=
  match s with
  | EmptyString => String.prefix old s
  | String _ s' => String.prefix old s || occurs old s'
  end.

(** ** Derived notions used to state the claims *)

Section Derived.

Context {Content Segment AudioData : Type} `{Env Content Segment AudioData}.

(** The value [get_audio_duration] returns. *)
Definition duration_of (path : string) (st : state Content AudioData) : pynum :=
  match fst (get_audio_duration path st) with
  | Ret v => v
  | Raise _ => PyInt 0
  end.

(** The string [transcribe_audio] returns for a response of the service. *)
Definition transcript_of (r : service_response) : string :=
  match r with
  | SrvText t => t
  | SrvNoMatch => "Could not understand the audio."
  | SrvFailure d => "Google API request failed: " ++ d
  end.

(** Whether an event is a request to the recognition service. *)
Definition is_request (e : event AudioData) : bool :=
  match e with
  | EvRequest _ => true
  | EvStdout _ => false
  end.

(** Only stdout output, no request to the service. *)
Definition stdout_only (l : list (event AudioData)) : bool :=
  forallb (fun e => negb (is_request e)) l.

(** Whether [get_audio_duration] reaches its [return duration]: the file
    exists, [wave] reads its header and the rate is non-zero. *)
Definition header_usable (path : string) (st : state Content AudioData) : bool :=
  match st_fs st path with
  | Some d => match wave_read d with
              | inr (_, rate) => negb (N.eqb rate 0)
              | inl _ => false
              end
  | None => false
  end.

(** The number of requests to the recognition service in a stretch of log. *)
Definition requests (l : list (event AudioData)) : nat :=
  length (filter is_request l).

(** The effects of [m] are bounded: from any state it only prepends to the
    log, with at most [n] requests to the service, and it changes no file
    outside [ws], whether it returns or raises. *)
Definition effects_within {A} (n : nat) (ws : list string)
    (m : M (state Content AudioData) A) : Prop :=
  forall st, exists l,
    st_log (snd (m st)) = (l ++ st_log st)%list /\ (requests l <= n)%nat /\
    forall q, ~ In q ws -> st_fs (snd (m st)) q = st_fs st q.

End Derived.

(** ** A concrete environment, for running the model *)

(** File contents: a WAV file with its header fields, an MP3 file, an
    AIFF file, and bytes no library can parse. *)
Inductive demo_blob :=
  | DWav (frames rate : N)
  | DMp3 (frames rate : N)
  | DAiff
  | DCorrupt.

Definition demo_wave_read (d : fdata demo_blob) : pyexc + (N * N) :=
  match d with
  | FBlob (DWav f r) => inr (f, r)
  | _ => inl (PyExc "Error" "file does not start with RIFF id")
  end.

Definition demo_from_mp3 (d : fdata demo_blob) : pyexc + (N * N) :=
  match d with
  | FBlob (DMp3 f r) => inr (f, r)
  | _ => inl (PyExc "CouldntDecodeError"
                    "Decoding failed. ffmpeg returned error code: 1")
  end.

(** [sr.AudioFile] reads PCM WAV (dividing by its rate), AIFF or FLAC. *)
Definition demo_sr_record (d : fdata demo_blob) : pyexc + demo_blob :=
  match d with
  | FBlob (DWav f r) =>
      if N.eqb r 0 then inl (PyExc "ZeroDivisionError" "float division by zero")
      else inr (DWav f r)
  | FBlob DAiff => inr DAiff
  | _ => inl (PyExc "ValueError"
                ("Audio file could not be read as PCM WAV, AIFF/AIFF-C, or " ++
                 "Native FLAC; check if file is corrupted or in another format"))
  end.

(** [repr] of the non-negative floats [round(x, 2)] yields below [10^16]. *)
Definition demo_float_repr (x : f64) : string :=
  let k := match x with
           | S754_finite false m e => hundredths_of m e
           | _ => 0
           end in
  let c := k mod 100 in
  py_str_int (k / 100) ++ "." ++
  (if Z.eqb c 0 then "0"
   else if Z.eqb (c mod 10) 0 then py_str_int (c / 10)
   else pad_left 2 (py_str_int c)).

Definition demo_env (resp : service_response) : Env demo_blob (N * N) demo_blob :=
  {| wave_read := demo_wave_read;
     from_mp3 := demo_from_mp3;
     export_wav := fun seg => DWav (fst seg) (snd seg);
     sr_record := demo_sr_record;
     google := fun _ => resp;
     can_open_w := fun _ => true;
     clock := fun n => mkDatetime 2026 10 19 9 30 (Z.of_nat n);
     float_repr := demo_float_repr |}.

Fixpoint demo_lookup (files : list (string * fdata demo_blob)) (p : string)
    : option (fdata demo_blob) :=
  match files with
  | [] => None
  | (q, d) :: rest => if String.eqb q p then Some d else demo_lookup rest p
  end.

Definition demo_state (files : list (string * fdata demo_blob))
    : state demo_blob demo_blob :=
  mkState (demo_lookup files) [] O.

(** Services, states and runs used below. *)
Definition demo_hello := demo_env (SrvText "hello world").
Definition demo_nomatch := demo_env SrvNoMatch.
Definition demo_quota := demo_env (SrvFailure "quota exceeded").


Definition sample_state := demo_state [("sample.wav", FBlob (DWav 32000 16000))].
Definition clip_state := demo_state [("clip.wav", FBlob (DWav 107 40))].
Definition talk_state := demo_state [("talk.wav", FBlob DAiff)].
Definition bad_state := demo_state [("bad.wav", FBlob DCorrupt)].
Definition notes_state := demo_state [("notes.flac", FBlob DAiff)].
Definition empty_wav_state := demo_state [("silence.wav", FBlob (DWav 0 16000))].
Definition song_state := demo_state [("song.MP3", FBlob (DMp3 32000 16000))].

(** * Proofs *)

Lemma string_append_assoc (a b c : string) : (a ++ b) ++ c = a ++ (b ++ c).
Proof. induction a as [|x a IH]; simpl; [reflexivity | now rewrite IH]. Qed.

Lemma string_append_nil_r (a : string) : a ++ "" = a.
Proof. induction a as [|x a IH]; simpl; [reflexivity | now rewrite IH]. Qed.

(** ** Signs of binary64 results *)

(** Sign bit clear (NaN counts as unsigned): never [< 0] in Python. *)
Definition f64_unsigned (x : f64) : bool :=
  match x with
  | S754_zero s | S754_infinity s | S754_finite s _ _ => negb s
  | S754_nan => true
  end.

Lemma f64_unsigned_not_lt0 x : f64_unsigned x = true -> f64_lt0 x = false.
Proof. destruct x as [s|s| |s m e]; simpl; auto; now destruct s. Qed.

Lemma binary_round_aux_unsigned mx ex lx :
  f64_unsigned (binary_round_aux prec64 emax64 false mx ex lx) = true.
Proof.
  unfold binary_round_aux.
  destruct (shr_fexp prec64 emax64 mx ex lx) as [mrs' e'].
  destruct (shr_fexp prec64 emax64 _ e' loc_Exact) as [mrs'' e''].
  destruct (shr_m mrs''); simpl; auto.
  destruct (e'' <=? _); reflexivity.
Qed.

Lemma f64_of_Z_N_unsigned (n : N) : f64_unsigned (f64_of_Z (Z.of_N n)) = true.
Proof.
  destruct n as [|p]; [reflexivity|].
  unfold f64_of_Z, binary_normalize, binary_round; simpl.
  destruct (shl_align _ _ _) as [mz ez].
  apply binary_round_aux_unsigned.
Qed.

Lemma f64_div_unsigned x y :
  f64_unsigned x = true -> f64_unsigned y = true ->
  f64_unsigned (f64_div x y) = true.
Proof.
  intros Hx Hy; unfold f64_div, SFdiv.
  destruct x as [sx|sx| |sx mx ex]; destruct y as [sy|sy| |sy my ey];
    simpl in *; try reflexivity;
    apply negb_true_iff in Hx; apply negb_true_iff in Hy; subst; try reflexivity.
  destruct (SFdiv_core_binary _ _ _ _ _ _) as [[mz ez] lz].
  apply binary_round_aux_unsigned.
Qed.

Lemma py_round2_unsigned x :
  f64_unsigned x = true -> f64_unsigned (py_round2 x) = true.
Proof.
  intros Hx; destruct x as [s|s| |s m e]; simpl; auto.
  apply negb_true_iff in Hx; subst s.
  unfold f64_of_hundredths; destruct (hundredths_of m e) as [|k|k]; auto.
  apply (f64_div_unsigned (S754_finite false k 0) (S754_finite false 100 0));
    reflexivity.
Qed.

(** ** Rounding to hundredths *)

Lemma round_half_even_div_near num den :
  0 < den ->
  Z.abs (2 * num - 2 * den * round_half_even_div num den) <= den.
Proof.
  intros Hd; unfold round_half_even_div.
  pose proof (Z.div_mod num den ltac:(lia)) as Hdm.
  pose proof (Z.mod_pos_bound num den Hd) as Hb.
  set (q := num / den) in *; set (r := num mod den) in *.
  destruct (Z.compare_spec (2 * r) den);
    [destruct (Z.even q)| |]; lia.
Qed.

(** ** Monad steps *)

Lemma bind_ret {S A B} (m : M S A) (k : A -> M S B) s a s' :
  m s = (Ret a, s') -> bind m k s = k a s'.
Proof. intros E; unfold bind; now rewrite E. Qed.

Lemma bind_raise {S A B} (m : M S A) (k : A -> M S B) s e s' :
  m s = (Raise e, s') -> bind m k s = (Raise e, s').
Proof. intros E; unfold bind; now rewrite E. Qed.

Ltac step :=
  erewrite bind_ret by (first [eassumption | reflexivity]);
  cbn [st_fs st_log st_clock].

(** ** get_audio_duration *)

Ltac split_matches :=
  repeat (cbn [fst snd];
          match goal with
          | |- context [match ?x with _ => _ end] =>
             lazymatch x with
             | context [match _ with _ => _ end] => fail
             | _ => let E := fresh "E" in destruct x eqn:E
             end
          end).

(** ** String lemmas: split, replace *)

Lemma last_app_ne (l1 l2 : list string) (d : string) :
  l2 <> [] -> last (l1 ++ l2) d = last l2 d.
Proof.
  intros Hne; induction l1 as [|x l1 IH]; [reflexivity|].
  cbn [app]. rewrite <- IH.
  destruct (l1 ++ l2)%list eqn:E; [|reflexivity].
  apply app_eq_nil in E; destruct E; contradiction.
Qed.

Lemma py_split_ne (sep : ascii) (s : string) : py_split sep s <> [].
Proof.
  destruct s as [|c s]; simpl; [discriminate|].
  destruct (Ascii.eqb c sep); [discriminate|].
  destruct (py_split sep s); discriminate.
Qed.

Lemma py_split_app_sep (sep : ascii) (a b : string) :
  exists pre, pre <> [] /\
    py_split sep (a ++ String sep b) = (pre ++ py_split sep b)%list.
Proof.
  induction a as [|c a [pre [Hne IH]]]; simpl.
  - rewrite Ascii.eqb_refl. exists [EmptyString]; split; [discriminate|reflexivity].
  - rewrite IH. destruct (Ascii.eqb c sep).
    + exists (EmptyString :: pre); split; [discriminate|reflexivity].
    + destruct pre as [|h t]; [contradiction|].
      exists (String c h :: t); split; [discriminate|reflexivity].
Qed.

Lemma prefix_empty (s : string) : String.prefix "" s = true.
Proof. now destruct s. Qed.

Lemma prefix_cons (a b : ascii) (s1 s2 : string) :
  String.prefix (String a s1) (String b s2) =
  if ascii_dec a b then String.prefix s1 s2 else false.
Proof. reflexivity. Qed.

Lemma py_split_no_sep (sep : ascii) (b : string) :
  occurs (String sep EmptyString) b = false -> py_split sep b = [b].
Proof.
  induction b as [|c b IH]; intros Hb; [reflexivity|].
  simpl in Hb |- *. apply orb_false_iff in Hb; destruct Hb as [Hc Hb].
  revert Hc; destruct (ascii_dec sep c) as [Heq|Hne];
    [intros Hc; rewrite prefix_empty in Hc; discriminate Hc|intros _].
  rewrite IH by exact Hb.
  destruct (Ascii.eqb_spec c sep); [congruence|reflexivity].
Qed.

Lemma prefix_app_inv (w s : string) :
  String.prefix w s = true -> exists rest, s = w ++ rest.
Proof.
  revert s; induction w as [|x w IH]; intros s Hp.
  - now exists s.
  - destruct s as [|c s]; [discriminate|].
    simpl in Hp; destruct (ascii_dec x c) as [<-|]; [|discriminate].
    destruct (IH s Hp) as [rest ->]. now exists rest.
Qed.

(** The path computation of line 103. *)
Local Abbreviation to_wav := (py_replace_aux ".mp3" ".wav" O).

Lemma to_wav_mp3 (rest : string) :
  to_wav (".mp3" ++ rest) = ".wav" ++ to_wav rest.
Proof. simpl. rewrite prefix_empty. reflexivity. Qed.

Lemma to_wav_prefix (w : string) :
  occurs "." w = false -> forall s, String.prefix w (to_wav s) = String.prefix w s.
Proof.
  induction w as [|x w IH]; intros Hw s; [now rewrite !prefix_empty|].
  cbn [occurs] in Hw; apply orb_false_iff in Hw; destruct Hw as [Hx Hw].
  rewrite prefix_cons in Hx.
  destruct (ascii_dec "." x) as [|Hnx];
    [rewrite prefix_empty in Hx; discriminate Hx|].
  destruct (String.prefix ".mp3" s) eqn:Hp.
  - apply prefix_app_inv in Hp; destruct Hp as [rest ->].
    rewrite to_wav_mp3.
    change (".wav" ++ to_wav rest) with (String "." ("wav" ++ to_wav rest)).
    change (".mp3" ++ rest) with (String "." ("mp3" ++ rest)).
    rewrite !prefix_cons.
    destruct (ascii_dec x "."); [congruence|reflexivity].
  - destruct s as [|c s']; [reflexivity|].
    cbn [py_replace_aux]. rewrite Hp. cbn [append]. rewrite !prefix_cons.
    destruct (ascii_dec x c) as [<-|]; [|reflexivity].
    destruct w as [|y w']; [now rewrite !prefix_empty|].
    now apply IH.
Qed.

Lemma to_wav_no_mp3 (s : string) : occurs ".mp3" (to_wav s) = false.
Proof.
  remember (String.length s) as n eqn:Hn.
  assert (Hle : (String.length s <= n)%nat) by lia. clear Hn.
  revert s Hle; induction n as [n IH] using lt_wf_ind; intros s Hle.
  destruct s as [|c s']; [reflexivity|].
  destruct (String.prefix ".mp3" (String c s')) eqn:Hp.
  - apply prefix_app_inv in Hp; destruct Hp as [rest Hr].
    rewrite Hr.
    rewrite to_wav_mp3.
    change (occurs ".mp3" (".wav" ++ to_wav rest)) with (occurs ".mp3" (to_wav rest)).
    apply (IH (String.length rest)); [|lia].
    rewrite Hr in Hle; simpl in Hle; lia.
  - cbn [py_replace_aux]. rewrite Hp.
    change (occurs ".mp3" (String c (to_wav s')))
      with (String.prefix ".mp3" (String c (to_wav s')) || occurs ".mp3" (to_wav s')).
    rewrite (IH (String.length s')) by (simpl in Hle; lia).
    rewrite orb_false_r. rewrite prefix_cons in Hp |- *.
    destruct (ascii_dec "." c); [|reflexivity].
    etransitivity; [apply to_wav_prefix; reflexivity|exact Hp].
Qed.

Lemma py_replace_absent (s old new : string) :
  occurs old s = false -> py_replace_aux old new O s = s.
Proof.
  induction s as [|c s IH]; intros Ho; [reflexivity|].
  change (String.prefix old (String c s) || occurs old s = false) in Ho.
  apply orb_false_iff in Ho; destruct Ho as [Hp Ho].
  change (py_replace_aux old new O (String c s)) with
    (if String.prefix old (String c s)
     then new ++ py_replace_aux old new (pred (String.length old)) s
     else String c (py_replace_aux old new O s)).
  rewrite Hp, IH by exact Ho. reflexivity.
Qed.

(** ** strip, lower and split *)

Lemma drop_space_idem (l : list ascii) : drop_space (drop_space l) = drop_space l.
Proof.
  induction l as [|c l IH]; [reflexivity|]; cbn [drop_space].
  destruct (py_isspace c) eqn:Hc; [exact IH|cbn [drop_space]; now rewrite Hc].
Qed.

Lemma drop_space_app_nonspace (l : list ascii) (c : ascii) :
  py_isspace c = false -> drop_space (l ++ [c]) = (drop_space l ++ [c])%list.
Proof.
  intros Hc; induction l as [|a l IH]; cbn [drop_space app].
  - now rewrite Hc.
  - destruct (py_isspace a); [exact IH|reflexivity].
Qed.

Lemma drop_space_head (l : list ascii) :
  drop_space l = [] \/
  exists c l', drop_space l = c :: l' /\ py_isspace c = false.
Proof.
  induction l as [|c l IH]; [now left|]; cbn [drop_space].
  destruct (py_isspace c) eqn:Hc; [exact IH|right; now exists c, l].
Qed.

Lemma py_strip_idem (s : string) : py_strip (py_strip s) = py_strip s.
Proof.
  unfold py_strip; rewrite list_ascii_of_string_of_list_ascii.
  set (y := drop_space (list_ascii_of_string s)).
  assert (Hz : drop_space (rev (drop_space (rev y))) = rev (drop_space (rev y))).
  { destruct (drop_space_head (list_ascii_of_string s)) as [E|[c [y' [E Hc]]]];
      fold y in E; rewrite E; [reflexivity|].
    cbn [rev]; rewrite drop_space_app_nonspace by exact Hc.
    rewrite rev_app_distr; cbn [rev app drop_space]; now rewrite Hc. }
  rewrite Hz, rev_involutive, drop_space_idem; reflexivity.
Qed.

Lemma ascii_lower_idem (c : ascii) : ascii_lower (ascii_lower c) = ascii_lower c.
Proof. destruct c as [[] [] [] [] [] [] [] []]; reflexivity. Qed.

Lemma ascii_lower_dot (c : ascii) :
  Ascii.eqb (ascii_lower c) "." = Ascii.eqb c ".".
Proof. destruct c as [[] [] [] [] [] [] [] []]; reflexivity. Qed.

Lemma py_lower_idem (s : string) : py_lower (py_lower s) = py_lower s.
Proof. induction s as [|c s IH]; cbn; [reflexivity|now rewrite ascii_lower_idem, IH]. Qed.

Lemma occurs_dot_cons (a : ascii) (s : string) :
  occurs "." (String a s) = Ascii.eqb a "." || occurs "." s.
Proof.
  change (occurs "." (String a s)) with (String.prefix "." (String a s) || occurs "." s).
  rewrite prefix_cons, prefix_empty.
  destruct (ascii_dec "." a), (Ascii.eqb_spec a "."); congruence.
Qed.

Lemma occurs_dot_py_lower (s : string) : occurs "." (py_lower s) = occurs "." s.
Proof.
  induction s as [|c s IH]; [reflexivity|].
  cbn [py_lower]; rewrite !occurs_dot_cons, ascii_lower_dot, IH; reflexivity.
Qed.

Lemma py_split_dot_free (s : string) :
  Forall (fun x => occurs "." x = false) (py_split "." s).
Proof.
  induction s as [|c s IH]; cbn [py_split]; [now repeat constructor|].
  destruct (Ascii.eqb c ".") eqn:Hc; [now constructor|].
  destruct (py_split "." s) as [|h t]; [constructor; [|constructor]|].
  - rewrite occurs_dot_cons, Hc; reflexivity.
  - inversion IH as [|? ? Hh Ht]; constructor; [|exact Ht].
    rewrite occurs_dot_cons, Hc, Hh; reflexivity.
Qed.

Lemma Forall_last {A} (P : A -> Prop) (l : list A) (d : A) :
  Forall P l -> l <> [] -> P (last l d).
Proof.
  induction 1 as [|x l Hx Hl IH]; [contradiction|intros _].
  destruct l as [|y l]; [exact Hx|apply IH; discriminate].
Qed.

Lemma to_wav_length (s : string) : String.length (to_wav s) = String.length s.
Proof.
  enough (H : forall n s, (String.length s <= n)%nat ->
                String.length (to_wav s) = String.length s)
    by (apply (H (String.length s) s); lia).
  clear s; intros n; induction n as [n IH] using lt_wf_ind; intros s Hle.
  destruct s as [|c s']; [reflexivity|].
  destruct (String.prefix ".mp3" (String c s')) eqn:Hp.
  - apply prefix_app_inv in Hp; destruct Hp as [rest Hr].
    rewrite Hr, to_wav_mp3. cbn [String.length append].
    rewrite (IH (String.length rest)); [reflexivity| |reflexivity].
    rewrite Hr in Hle; simpl in Hle; lia.
  - cbn [py_replace_aux]. rewrite Hp. cbn [String.length].
    rewrite (IH (String.length s')) by (simpl in Hle; lia); reflexivity.
Qed.

Lemma prefix_mp3_app (u : string) :
  String.prefix ".mp3" (u ++ ".mp3") = true -> u = "" \/ String.prefix ".mp3" u = true.
Proof.
  intros H; destruct u as [|a u]; [now left|right].
  cbn [append] in H; rewrite prefix_cons in H |- *.
  destruct (ascii_dec "." a); [subst a|discriminate].
  destruct u as [|b u]; [cbn in H; discriminate|].
  cbn [append] in H; rewrite prefix_cons in H |- *.
  destruct (ascii_dec "m" b); [subst b|discriminate].
  destruct u as [|c u]; [cbn in H; discriminate|].
  cbn [append] in H; rewrite prefix_cons in H |- *.
  destruct (ascii_dec "p" c); [subst c|discriminate].
  destruct u as [|x u]; [cbn in H; discriminate|].
  cbn [append] in H; rewrite prefix_cons in H |- *.
  destruct (ascii_dec "3" x); [apply prefix_empty|discriminate].
Qed.

Lemma to_wav_sibling (b : string) :
  occurs ".mp3" b = false -> to_wav (b ++ ".mp3") = b ++ ".wav".
Proof.
  induction b as [|c b IH]; intros Hb.
  - exact (to_wav_mp3 "").
  - change (String.prefix ".mp3" (String c b) || occurs ".mp3" b = false) in Hb.
    apply orb_false_iff in Hb; destruct Hb as [Hp Hb].
    cbn [append py_replace_aux].
    destruct (String.prefix ".mp3" (String c (b ++ ".mp3"))) eqn:Hq.
    + destruct (prefix_mp3_app (String c b) Hq) as [E|E]; [discriminate|congruence].
    + now rewrite IH.
Qed.

Section Proofs.

Context {Content Segment AudioData : Type} `{Env Content Segment AudioData}.

Lemma get_audio_duration_ret (p : string) (st : state Content AudioData) :
  exists l, get_audio_duration p st =
            (Ret (duration_of p st), mkState (st_fs st) (l ++ st_log st) (st_clock st))
         /\ stdout_only l = true.
Proof.
  destruct st as [fs log clk]; unfold duration_of.
  unfold get_audio_duration, try_except, bind, read_file, lift_sum,
    py_float_of_int, py_float_div, ret, raise, print; simpl.
  split_matches; simpl;
    first [ exists []; split; reflexivity
          | eexists [_]; split; reflexivity ].
Qed.

Lemma duration_of_not_lt0 (p : string) (st : state Content AudioData) :
  pynum_lt0 (duration_of p st) = false.
Proof.
  destruct st as [fs log clk]; unfold duration_of.
  unfold get_audio_duration, try_except, bind, read_file, lift_sum,
    py_float_of_int, py_float_div, ret, raise, print.
  split_matches; cbn [pynum_lt0]; try reflexivity;
    apply f64_unsigned_not_lt0, py_round2_unsigned, f64_div_unsigned;
    repeat match goal with
           | E : f64_of_Z (Z.of_N ?n) = _ |- _ =>
               let U := fresh "U" in
               pose proof (f64_of_Z_N_unsigned n) as U; rewrite E in U; clear E
           end; assumption.
Qed.

Lemma duration_of_unusable (p : string) (st : state Content AudioData) :
  header_usable p st = false -> duration_of p st = PyInt 0.
Proof.
  destruct st as [fs log clk]; unfold header_usable, duration_of.
  unfold get_audio_duration, try_except, bind, read_file, lift_sum,
    py_float_of_int, py_float_div, ret, raise, print; simpl.
  intros Hu.
  destruct (fs p) as [d|]; [|reflexivity].
  destruct (wave_read d) as [e|[f r]]; [reflexivity|].
  destruct r as [|r]; [|discriminate].
  simpl; split_matches; reflexivity.
Qed.

(** C8: [get_audio_duration] is total: for every path and every state it
    returns normally (no exception escapes), its value is never negative,
    it changes no file, and when the file is missing, [wave] cannot read
    its header or the rate is zero, the value is exactly the int [0]. *)
Theorem get_audio_duration_total_nonneg (p : string) (st : state Content AudioData) :
  exists v st',
    get_audio_duration p st = (Ret v, st') /\
    pynum_lt0 v = false /\
    st_fs st' = st_fs st /\
    (header_usable p st = true \/ v = PyInt 0).
Proof.
  destruct (get_audio_duration_ret p st) as [l [Hr _]].
  exists (duration_of p st), (mkState (st_fs st) (l ++ st_log st) (st_clock st)).
  split; [exact Hr|]. split; [apply duration_of_not_lt0|]. split; [reflexivity|].
  destruct (header_usable p st) eqn:Hu; [now left | right].
  now apply duration_of_unusable.
Qed.

(** C3 (amended): for a readable header [(frames, rate)] whose fields
    convert to finite floats, the rate to a non-zero one (as every 32-bit
    WAV field with [rate <> 0] does),
    the duration is [round(float(frames) / float(rate), 2)] in binary64
    and nothing else happens: the quotient [q] is the binary64 nearest to
    [frames / rate]; when [q = m * 2^e] (the sign bit is clear) the result
    is the double nearest to [k / 100] for a [k >= 0] with
    [|100 * q - k| <= 1/2] (exactly [100 * q] when [e >= 0]).  It rounds
    [q], not the exact quotient. *)
Theorem get_audio_duration_binary64 (p : string) (st : state Content AudioData)
    (d : fdata Content) (frames rate : N) :
  st_fs st p = Some d ->
  wave_read d = inr (frames, rate) ->
  f64_finite (f64_of_Z (Z.of_N frames)) = true ->
  f64_finite_nonzero (f64_of_Z (Z.of_N rate)) = true ->
  let q := f64_div (f64_of_Z (Z.of_N frames)) (f64_of_Z (Z.of_N rate)) in
  get_audio_duration p st = (Ret (PyFloat (py_round2 q)), st) /\
  f64_unsigned q = true /\
  (forall s m e, q = S754_finite s m e ->
     s = false /\
     exists k, py_round2 q = f64_of_hundredths false k /\ 0 <= k /\
       (if Z.leb 0 e then k = Zpos m * 2 ^ e * 100
        else Z.abs (2 * (Zpos m * 100) - 2 * 2 ^ (- e) * k) <= 2 ^ (- e))).
Proof.
  intros Hd Hw Hff Hrf q.
  assert (Hq : f64_unsigned q = true)
    by (apply f64_div_unsigned; apply f64_of_Z_N_unsigned).
  split; [|split; [exact Hq|]].
  - destruct st as [fs log clk]; simpl in Hd.
    unfold get_audio_duration, try_except, bind, read_file, lift_sum,
      py_float_of_int, py_float_div, ret, raise; cbn [st_fs].
    rewrite Hd, Hw.
    destruct (f64_of_Z (Z.of_N rate)) as [sr|sr| |sr mr er] eqn:Er;
      try discriminate Hrf.
    destruct (f64_of_Z (Z.of_N frames)) eqn:Ef; try discriminate Hff;
        reflexivity.
  - intros s m e Hqe.
    rewrite Hqe in Hq; simpl in Hq; apply negb_true_iff in Hq; subst s.
    split; [reflexivity|].
    exists (hundredths_of m e); rewrite Hqe; split; [reflexivity|].
    unfold hundredths_of; destruct (Z.leb_spec 0 e) as [He|He].
    + split; [|reflexivity]. apply Z.mul_nonneg_nonneg; [|lia].
      apply Z.mul_nonneg_nonneg; [lia|]. apply Z.pow_nonneg; lia.
    + assert (Hp : 0 < 2 ^ (- e)) by (apply Z.pow_pos_nonneg; lia).
      split.
      * unfold round_half_even_div.
        assert (0 <= Zpos m * 100 / 2 ^ (- e)) by (apply Z.div_pos; lia).
        destruct (2 * (Zpos m * 100 mod 2 ^ (- e)) ?= 2 ^ (- e));
          [destruct (Z.even _)| |]; lia.
      * pose proof (round_half_even_div_near (Zpos m * 100) (2 ^ (- e)) Hp).
        lia.
Qed.

(** ** transcribe_audio and save_transcription_report *)

Lemma read_file_some (p : string) (st : state Content AudioData) d :
  st_fs st p = Some d -> read_file p st = (Ret d, st).
Proof. intros E; unfold read_file; now rewrite E. Qed.

Lemma transcribe_audio_ok (p : string) (st : state Content AudioData) d a :
  st_fs st p = Some d -> sr_record d = inr a ->
  exists l, transcribe_audio p st =
              (Ret (transcript_of (google a)),
               mkState (st_fs st) (l ++ st_log st) (st_clock st)) /\
            In (EvRequest a) l.
Proof.
  intros Hd Ha; destruct st as [fs log clk].
  unfold transcribe_audio.
  erewrite bind_ret by (apply read_file_some; exact Hd); cbv beta.
  erewrite bind_ret by (unfold lift_sum; rewrite Ha; reflexivity); cbv beta.
  step.
  unfold try_except, recognize_google, transcript_of; cbn.
  destruct (google a); cbn;
    eexists [_; _; _]; split; try reflexivity; simpl; auto.
Qed.

Lemma transcribe_audio_no_audio (p : string) (st : state Content AudioData) d e :
  st_fs st p = Some d -> sr_record d = inl e ->
  transcribe_audio p st = (Raise e, st).
Proof.
  intros Hd He; unfold transcribe_audio.
  erewrite bind_ret by (apply read_file_some; exact Hd); cbv beta.
  apply bind_raise; unfold lift_sum; rewrite He; reflexivity.
Qed.

Lemma bind_write_text {B} (path t' : string) (k : unit -> M (state Content AudioData) B)
    (st : state Content AudioData) enc t :
  st_fs st path = Some (FText enc t) ->
  bind (write_text path t') k st =
    k tt (mkState (fun q => if String.eqb q path then Some (FText enc (t ++ t'))
                            else st_fs st q)
                  (st_log st) (st_clock st)).
Proof. intros E; unfold bind, write_text; now rewrite E. Qed.

Ltac write_step :=
  match goal with
  | |- context [bind (write_text ?p ?t') ?k ?s] =>
      erewrite (bind_write_text p t' k s)
        by (cbn [st_fs]; rewrite ?String.eqb_refl; reflexivity)
  end; cbn [st_fs st_log st_clock].

Lemma save_report_ok (p : string) (dur : pynum) (txt : string)
    (st : state Content AudioData) :
  can_open_w output_file = true ->
  exists st', save_transcription_report p dur txt st = (Ret tt, st') /\
    st_fs st' output_file =
      Some (FText "utf-8" (spec_report p (py_str_num dur)
                             (strftime_report (clock (st_clock st))) txt)) /\
    (forall q, q <> output_file -> st_fs st' q = st_fs st q) /\
    st_clock st' = S (st_clock st) /\
    exists l, st_log st' = (l ++ st_log st)%list /\ stdout_only l = true.
Proof.
  intros Hw; destruct st as [fs log clk].
  unfold save_transcription_report.
  erewrite bind_ret by (unfold open_w; rewrite Hw; reflexivity);
    cbn [st_fs st_log st_clock].
  do 4 write_step.
  erewrite bind_ret by reflexivity; cbn [st_fs st_log st_clock].
  do 3 write_step.
  eexists; split; [reflexivity|].
  split; [|split; [|split]].
  - cbn [st_fs]. rewrite !String.eqb_refl.
    unfold spec_report; do 2 f_equal.
    rewrite !string_append_assoc. reflexivity.
  - intros q Hq. cbn [st_fs].
    destruct (String.eqb_spec q output_file); [contradiction | reflexivity].
  - reflexivity.
  - eexists [_]; split; reflexivity.
Qed.

Lemma transcribe_audio_missing (p : string) (st : state Content AudioData) :
  st_fs st p = None -> transcribe_audio p st = (Raise (no_such_file p), st).
Proof.
  intros Hn; unfold transcribe_audio; apply bind_raise.
  unfold read_file; now rewrite Hn.
Qed.

Lemma save_report_fail (p : string) (dur : pynum) (txt : string)
    (st : state Content AudioData) :
  can_open_w output_file = false ->
  exists e, save_transcription_report p dur txt st = (Raise e, st).
Proof.
  intros Hw; eexists; unfold save_transcription_report; apply bind_raise.
  unfold open_w; rewrite Hw; reflexivity.
Qed.

(** ** Steps 3 to 6 *)

Lemma process_ok (p : string) (st : state Content AudioData) d a :
  st_fs st p = Some d -> sr_record d = inr a -> can_open_w output_file = true ->
  exists st', process p st = (Ret tt, st') /\
    st_fs st' output_file =
      Some (FText "utf-8"
              (spec_report p (py_str_num (duration_of p st))
                 (strftime_report (clock (S (st_clock st))))
                 (transcript_of (google a)))) /\
    (forall q, q <> output_file -> st_fs st' q = st_fs st q) /\
    In (EvRequest a) (st_log st').
Proof.
  intros Hd Ha Hw.
  destruct (get_audio_duration_ret p st) as [l1 [E1 _]].
  unfold process.
  erewrite bind_ret by exact E1; cbv beta.
  step.
  match goal with
  | |- context [bind (transcribe_audio p) _ ?s] =>
      destruct (transcribe_audio_ok p s d a Hd Ha) as [l2 [E2 I2]]
  end.
  erewrite bind_ret by exact E2; cbv beta.
  repeat step.
  match goal with
  | |- context [save_transcription_report ?q ?du ?tx ?s] =>
      destruct (save_report_ok q du tx s Hw)
        as [st' [E3 [F3 [O3 [_ [l3 [L3 _]]]]]]]
  end.
  rewrite E3. exists st'. split; [reflexivity|].
  split; [|split].
  - rewrite F3. reflexivity.
  - intros q Hq. rewrite (O3 q Hq). reflexivity.
  - rewrite L3. apply in_or_app; right. cbn [st_log].
    repeat (first [ apply in_or_app; left; exact I2 | right ]).
Qed.

Lemma process_ret_inv (p : string) (st st' : state Content AudioData) :
  process p st = (Ret tt, st') ->
  exists d a, st_fs st p = Some d /\ sr_record d = inr a /\
              can_open_w output_file = true.
Proof.
  destruct (get_audio_duration_ret p st) as [l1 [E1 _]].
  unfold process.
  erewrite bind_ret by exact E1; cbv beta.
  step.
  destruct (st_fs st p) as [d|] eqn:Hd.
  - destruct (sr_record d) as [e|a] eqn:Ha.
    + match goal with
      | |- context [bind (transcribe_audio p) _ ?s] =>
          erewrite bind_raise by exact (transcribe_audio_no_audio p s d e Hd Ha)
      end; discriminate.
    + match goal with
      | |- context [bind (transcribe_audio p) _ ?s] =>
          destruct (transcribe_audio_ok p s d a Hd Ha) as [l2 [E2 _]]
      end.
      erewrite bind_ret by exact E2; cbv beta.
      repeat step.
      destruct (can_open_w output_file) eqn:Hw.
      * intros _; now exists d, a.
      * match goal with
        | |- context [save_transcription_report ?q ?du ?tx ?s] =>
            destruct (save_report_fail q du tx s Hw) as [e E3]
        end.
        rewrite E3; discriminate.
  - match goal with
    | |- context [bind (transcribe_audio p) _ ?s] =>
        erewrite bind_raise by exact (transcribe_audio_missing p s Hd)
    end; discriminate.
Qed.

(** ** main: validation and step 2 *)

Lemma main_missing (line : string) (st : state Content AudioData) :
  st_fs st (py_strip line) = None ->
  exists l, main line st =
              (Ret tt, mkState (st_fs st) (l ++ st_log st) (st_clock st)) /\
            stdout_only l = true.
Proof.
  intros Hn; destruct st as [fs log clk]; unfold main.
  do 3 step.
  unfold bind at 1, isfile; cbn [st_fs] in *; rewrite Hn; cbn.
  eexists [_; _; _; _]; split; reflexivity.
Qed.

Lemma main_present (line : string) (st : state Content AudioData) d :
  st_fs st (py_strip line) = Some d ->
  exists l, stdout_only l = true /\
    main line st =
      bind (convert_step (py_strip line) (file_ext_of (py_strip line)))
           (fun fp => match fp with
                      | None => ret tt
                      | Some file_path => process file_path
                      end)
           (mkState (st_fs st) (l ++ st_log st) (st_clock st)).
Proof.
  intros Hd; destruct st as [fs log clk]; unfold main.
  do 3 step.
  unfold bind at 1, isfile; cbn [st_fs] in *; rewrite Hd; cbn [negb].
  do 2 step.
  eexists [_; _; _; _; _]; split; [|reflexivity]; reflexivity.
Qed.

Lemma convert_step_wav (name : string) (st : state Content AudioData) :
  convert_step name "wav" st = (Ret (Some name), st).
Proof. reflexivity. Qed.

Lemma convert_step_other (name ext : string) (st : state Content AudioData) :
  ext <> "mp3" -> ext <> "wav" ->
  exists l, convert_step name ext st =
              (Ret None, mkState (st_fs st) (l ++ st_log st) (st_clock st)) /\
            stdout_only l = true.
Proof.
  intros H3 Hw; destruct st as [fs log clk]; unfold convert_step.
  destruct (String.eqb_spec ext "mp3"); [contradiction|].
  destruct (String.eqb_spec ext "wav"); [contradiction|].
  step. eexists [_]; split; reflexivity.
Qed.

Lemma convert_step_mp3_ok (name : string) (st : state Content AudioData) d seg :
  let w := py_replace name ".mp3" ".wav" in
  st_fs st name = Some d -> from_mp3 d = inr seg -> can_open_w w = true ->
  exists st',
    convert_step name "mp3" st = (Ret (Some w), st') /\
    st_fs st' w = Some (FBlob (export_wav seg)) /\
    (forall q, q <> w -> st_fs st' q = st_fs st q) /\
    st_clock st' = st_clock st /\
    exists l, st_log st' = (l ++ st_log st)%list /\ stdout_only l = true.
Proof.
  intros w Hd Hm Hw; destruct st as [fs log clk]; unfold convert_step; rewrite String.eqb_refl; cbv beta iota.
  step.
  erewrite bind_ret by (apply read_file_some; exact Hd); cbv beta.
  erewrite bind_ret by (unfold lift_sum; rewrite Hm; reflexivity); cbv beta.
  unfold export at 1; fold w; rewrite Hw.
  step. step.
  eexists; split; [reflexivity|].
  split; [cbn; now rewrite String.eqb_refl|].
  split; [intros q Hq; cbn; destruct (String.eqb_spec q w); [contradiction|reflexivity]|].
  split; [reflexivity|].
  eexists [_; _]; split; reflexivity.
Qed.

Lemma convert_step_mp3_ret (name : string) (st st' : state Content AudioData) o :
  convert_step name "mp3" st = (Ret o, st') ->
  exists d seg, st_fs st name = Some d /\ from_mp3 d = inr seg /\
                can_open_w (py_replace name ".mp3" ".wav") = true.
Proof.
  destruct st as [fs log clk]; unfold convert_step; rewrite String.eqb_refl; cbv beta iota.
  step.
  destruct (fs name) as [d|] eqn:Hd.
  - erewrite bind_ret by (apply read_file_some; exact Hd); cbv beta.
    destruct (from_mp3 d) as [e|seg] eqn:Hm.
    + erewrite bind_raise by reflexivity; discriminate.
    + erewrite bind_ret by reflexivity; cbv beta.
      destruct (can_open_w (py_replace name ".mp3" ".wav")) eqn:Hw.
      * intros _; now exists d, seg.
      * erewrite bind_raise by (unfold export; rewrite Hw; reflexivity).
        discriminate.
  - erewrite bind_raise by (unfold read_file; cbn; rewrite Hd; reflexivity).
    discriminate.
Qed.

Lemma process_ret_report (p : string) (st st' : state Content AudioData) :
  process p st = (Ret tt, st') ->
  exists d a, st_fs st p = Some d /\ sr_record d = inr a /\
    st_fs st' output_file =
      Some (FText "utf-8"
              (spec_report p (py_str_num (duration_of p st))
                 (strftime_report (clock (S (st_clock st))))
                 (transcript_of (google a)))) /\
    In (EvRequest a) (st_log st').
Proof.
  intros E.
  destruct (process_ret_inv p st st' E) as [d [a [Hd [Ha Hw]]]].
  destruct (process_ok p st d a Hd Ha Hw) as [st'' [E' [F [_ I]]]].
  rewrite E' in E; injection E as <-.
  now exists d, a.
Qed.

Lemma process_no_audio (p : string) (st : state Content AudioData) d e :
  st_fs st p = Some d -> sr_record d = inl e ->
  exists st', process p st = (Raise e, st') /\ st_fs st' = st_fs st.
Proof.
  intros Hd He.
  destruct (get_audio_duration_ret p st) as [l1 [E1 _]].
  unfold process.
  erewrite bind_ret by exact E1; cbv beta.
  step.
  match goal with
  | |- context [bind (transcribe_audio p) _ ?s] =>
      erewrite bind_raise by exact (transcribe_audio_no_audio p s d e Hd He)
  end.
  eexists; split; reflexivity.
Qed.

Lemma stdout_only_app (l1 l2 : list (event AudioData)) :
  stdout_only l1 = true -> stdout_only l2 = true -> stdout_only (l1 ++ l2) = true.
Proof.
  unfold stdout_only; rewrite forallb_app; intros -> ->; reflexivity.
Qed.

(** C5: when the typed path names no existing file, or names one whose
    format tag is neither [mp3] nor [wav], [main] returns normally with the
    file system and the clock unchanged (no report, no WAV file) and with
    only console output added to the log (no request to the service). *)
Theorem main_no_side_effects (line : string) (st : state Content AudioData) :
  st_fs st (py_strip line) = None \/
  ((exists d, st_fs st (py_strip line) = Some d) /\
   file_ext_of (py_strip line) <> "mp3" /\ file_ext_of (py_strip line) <> "wav") ->
  exists l, main line st =
              (Ret tt, mkState (st_fs st) (l ++ st_log st) (st_clock st)) /\
            stdout_only l = true.
Proof.
  intros [Hn | [[d Hd] [H3 Hw]]]; [now apply main_missing|].
  destruct (main_present line st d Hd) as [l1 [S1 E1]]; rewrite E1.
  match goal with
  | |- context [bind _ _ ?s] =>
      destruct (convert_step_other (py_strip line) (file_ext_of (py_strip line)) s H3 Hw)
        as [l2 [E2 S2]]
  end.
  erewrite bind_ret by exact E2; cbv beta.
  exists (l2 ++ l1)%list; split.
  - cbn [st_fs st_log st_clock]; unfold ret; rewrite app_assoc; reflexivity.
  - now apply stdout_only_app.
Qed.

Lemma main_wav_process (line : string) (st : state Content AudioData) d :
  st_fs st (py_strip line) = Some d -> file_ext_of (py_strip line) = "wav" ->
  exists l, stdout_only l = true /\
    main line st =
      process (py_strip line) (mkState (st_fs st) (l ++ st_log st) (st_clock st)).
Proof.
  intros Hd He.
  destruct (main_present line st d Hd) as [l1 [S1 E1]]; rewrite E1, He.
  exists l1; split; [exact S1|].
  erewrite bind_ret by apply convert_step_wav; reflexivity.
Qed.

(** C7: for the tag [wav] the normalisation step returns the typed path
    and leaves the state as it is; [main] then runs steps 3 to 6 (duration,
    transcription, report) on that same path, after console output only. *)
Theorem main_wav_same_path (line : string) (st : state Content AudioData) d :
  st_fs st (py_strip line) = Some d -> file_ext_of (py_strip line) = "wav" ->
  convert_step (py_strip line) (file_ext_of (py_strip line)) st =
    (Ret (Some (py_strip line)), st) /\
  exists l, stdout_only l = true /\
    main line st =
      process (py_strip line) (mkState (st_fs st) (l ++ st_log st) (st_clock st)).
Proof.
  intros Hd He; split; [rewrite He; apply convert_step_wav|].
  exact (main_wav_process line st d Hd He).
Qed.

(** C6: a run of [main] that returns normally on an existing file tagged
    [wav] or [mp3] leaves [transcription_output.txt] holding, UTF-8 encoded
    and whatever it held before, exactly the report layout of the spec: the
    path used, the duration, a timestamp, and the service's text (or the
    fallback message) followed by one newline; the run made a request to
    the service. The path is the typed one for [wav] and the converted one
    for [mp3]. *)
Theorem main_report_written (line : string) (st st' : state Content AudioData) d :
  let name := py_strip line in
  st_fs st name = Some d ->
  (file_ext_of name = "wav" \/ file_ext_of name = "mp3") ->
  main line st = (Ret tt, st') ->
  exists p dur k a,
    st_fs st' output_file =
      Some (FText "utf-8" (spec_report p (py_str_num dur)
                             (strftime_report (clock k)) (transcript_of (google a)))) /\
    In (EvRequest a) (st_log st') /\
    (file_ext_of name = "wav" -> p = name) /\
    (file_ext_of name = "mp3" -> p = py_replace name ".mp3" ".wav").
Proof.
  intros name Hd Hext Hm.
  destruct (main_present line st d Hd) as [l1 [_ E1]]; rewrite E1 in Hm.
  fold name in Hm.
  destruct Hext as [He | He]; rewrite He in Hm.
  - erewrite bind_ret in Hm by apply convert_step_wav; cbv beta in Hm.
    destruct (process_ret_report _ _ _ Hm) as [d' [a [_ [_ [F I]]]]].
    eexists _, _, _, a; split; [exact F|split; [exact I|]].
    split; [reflexivity|rewrite He; discriminate].
  - match type of Hm with
    | bind _ _ ?s = _ =>
        destruct (convert_step name "mp3" s) as [o s2] eqn:Ec
    end.
    destruct o as [o|e]; [|erewrite bind_raise in Hm by exact Ec; discriminate].
    destruct (convert_step_mp3_ret _ _ _ _ Ec) as [d2 [seg [Hd2 [Hs Hw]]]].
    match type of Ec with
    | convert_step _ _ ?s = _ =>
        destruct (convert_step_mp3_ok name s d2 seg Hd2 Hs Hw) as [st2 [E2 _]]
    end.
    rewrite E2 in Ec; injection Ec as <- <-.
    erewrite bind_ret in Hm by exact E2; cbv beta in Hm.
    destruct (process_ret_report _ _ _ Hm) as [d' [a [_ [_ [F I]]]]].
    eexists _, _, _, a; split; [exact F|split; [exact I|]].
    split; [rewrite He; discriminate|reflexivity].
Qed.

(** C2: once [sr.AudioFile] has read the file, a service that cannot
    resolve the audio yields the text ["Could not understand the audio."]
    and a service failure with description [msg] yields
    ["Google API request failed: " ++ msg]; neither is fatal: with a
    writable output file, steps 3 to 6 return normally and the report's
    transcribed text is that string. *)
Theorem transcribe_audio_fallbacks (p : string) (st : state Content AudioData) d a :
  st_fs st p = Some d -> sr_record d = inr a ->
  (google a = SrvNoMatch ->
     fst (transcribe_audio p st) = Ret "Could not understand the audio." /\
     (can_open_w output_file = true ->
        exists st', process p st = (Ret tt, st') /\
          st_fs st' output_file =
            Some (FText "utf-8"
                    (spec_report p (py_str_num (duration_of p st))
                       (strftime_report (clock (S (st_clock st))))
                       "Could not understand the audio.")))) /\
  (forall msg, google a = SrvFailure msg ->
     fst (transcribe_audio p st) = Ret ("Google API request failed: " ++ msg) /\
     (can_open_w output_file = true ->
        exists st', process p st = (Ret tt, st') /\
          st_fs st' output_file =
            Some (FText "utf-8"
                    (spec_report p (py_str_num (duration_of p st))
                       (strftime_report (clock (S (st_clock st))))
                       ("Google API request failed: " ++ msg))))).
Proof.
  intros Hd Ha.
  destruct (transcribe_audio_ok p st d a Hd Ha) as [l [Et _]].
  split; [intros Hg | intros msg Hg]; rewrite Et; unfold transcript_of; rewrite Hg;
    (split; [reflexivity|]); intros Hw;
    destruct (process_ok p st d a Hd Ha Hw) as [st' [Ep [F _]]];
    exists st'; split; try exact Ep; rewrite F, Hg; reflexivity.
Qed.

(** C1 (amended): when [wave] cannot use the header of the file tagged
    [wav], the duration is exactly [0]. The run then goes on to
    [transcribe_audio], where [sr.AudioFile] reads the file again, outside
    any [try]: if it reads it and the output file is writable, the run
    returns normally and the report says [Duration      : 0 seconds];
    if it fails, its exception ends the run and no report is written. *)
Theorem main_unusable_header (line : string) (st : state Content AudioData) d :
  let name := py_strip line in
  st_fs st name = Some d -> file_ext_of name = "wav" ->
  header_usable name st = false ->
  fst (get_audio_duration name st) = Ret (PyInt 0) /\
  (forall a, sr_record d = inr a -> can_open_w output_file = true ->
     exists st', main line st = (Ret tt, st') /\
       st_fs st' output_file =
         Some (FText "utf-8"
                 (spec_report name "0" (strftime_report (clock (S (st_clock st))))
                    (transcript_of (google a)))) /\
       In (EvRequest a) (st_log st')) /\
  (forall e, sr_record d = inl e ->
     exists st', main line st = (Raise e, st') /\ st_fs st' = st_fs st).
Proof.
  intros name Hd He Hu.
  destruct (main_wav_process line st d Hd He) as [l [_ Em]].
  fold name in Em.
  split; [|split].
  - destruct (get_audio_duration_ret name st) as [l1 [E1 _]].
    rewrite E1, (duration_of_unusable _ _ Hu); reflexivity.
  - intros a Ha Hw; rewrite Em.
    match goal with
    | |- context [process name ?s] =>
        destruct (process_ok name s d a Hd Ha Hw) as [st' [Ep [F [_ I]]]];
        assert (Hu' : header_usable name s = false) by exact Hu
    end.
    exists st'; split; [exact Ep|split; [|exact I]].
    rewrite F, (duration_of_unusable _ _ Hu'); reflexivity.
  - intros e Hr; rewrite Em.
    match goal with
    | |- context [process name ?s] =>
        destruct (process_no_audio name s d e Hd Hr) as [st' [Ep F]]
    end.
    exists st'; split; [exact Ep|exact F].
Qed.

(** C10 (amended): for the tag [mp3], the WAV path is
    [file_name.replace(".mp3", ".wav")], which replaces every occurrence
    of the lower-case [".mp3"], so none is left in it; a name in which
    [".mp3"] does not occur (an upper-case [".MP3"]) is left as it is, and
    the export then overwrites the input file. [main] writes the exported
    WAV data at that path and runs steps 3 to 6 on it. *)
Theorem main_mp3_output_path (line : string) (st : state Content AudioData) d seg :
  let name := py_strip line in
  let w := py_replace name ".mp3" ".wav" in
  st_fs st name = Some d -> file_ext_of name = "mp3" ->
  from_mp3 d = inr seg -> can_open_w w = true ->
  occurs ".mp3" w = false /\
  (occurs ".mp3" name = false -> w = name) /\
  exists st2, main line st = process w st2 /\
    st_fs st2 w = Some (FBlob (export_wav seg)) /\
    (forall q, q <> w -> st_fs st2 q = st_fs st q).
Proof.
  intros name w Hd He Hm Hw.
  split; [apply to_wav_no_mp3|split; [apply py_replace_absent|]].
  destruct (main_present line st d Hd) as [l1 [_ E1]]; rewrite E1.
  fold name; rewrite He.
  match goal with
  | |- context [bind _ _ ?s] =>
      destruct (convert_step_mp3_ok name s d seg Hd Hm Hw) as [st2 [E2 [F2 [O2 _]]]]
  end.
  erewrite bind_ret by exact E2; cbv beta.
  exists st2; split; [reflexivity|split; [exact F2|]].
  intros q Hq; rewrite (O2 q Hq); reflexivity.
Qed.

(** ** Bounded effects *)

Lemma requests_app (l1 l2 : list (event AudioData)) :
  requests (l1 ++ l2) = (requests l1 + requests l2)%nat.
Proof. unfold requests; now rewrite filter_app, length_app. Qed.

Lemma requests_stdout_only (l : list (event AudioData)) :
  stdout_only l = true -> requests l = O.
Proof.
  induction l as [|[] l IH]; cbn; [reflexivity|exact IH|discriminate].
Qed.

Lemma eff_pure {A} n ws (m : M (state Content AudioData) A) :
  (forall st, exists l, snd (m st) = mkState (st_fs st) (l ++ st_log st) (st_clock st) /\
                        stdout_only l = true) ->
  effects_within n ws m.
Proof.
  intros Hm st; destruct (Hm st) as [l [E Hs]]; rewrite E; cbn [st_fs st_log].
  exists l; split; [reflexivity|split; [|reflexivity]].
  rewrite (requests_stdout_only l Hs); lia.
Qed.

Lemma eff_bind {A B} n k ws (m : M (state Content AudioData) A)
    (f : A -> M (state Content AudioData) B) :
  effects_within n ws m -> (forall a, effects_within k ws (f a)) ->
  effects_within (n + k) ws (bind m f).
Proof.
  intros Hm Hf st; specialize (Hm st); unfold bind.
  destruct (m st) as [[a|e] s1]; cbn [snd] in Hm |- *;
    destruct Hm as [l1 [L1 [R1 F1]]].
  - destruct (Hf a s1) as [l2 [L2 [R2 F2]]].
    exists (l2 ++ l1)%list; split; [rewrite L2, L1; apply app_assoc|split].
    + rewrite requests_app; lia.
    + intros q Hq; rewrite F2, F1 by exact Hq; reflexivity.
  - exists l1; split; [exact L1|split; [lia|exact F1]].
Qed.

Lemma eff_try {A} n k ws (m : M (state Content AudioData) A)
    (h : pyexc -> M (state Content AudioData) A) :
  effects_within n ws m -> (forall e, effects_within k ws (h e)) ->
  effects_within (n + k) ws (try_except m h).
Proof.
  intros Hm Hh st; specialize (Hm st); unfold try_except.
  destruct (m st) as [[a|e] s1]; cbn [snd] in Hm |- *;
    destruct Hm as [l1 [L1 [R1 F1]]].
  - exists l1; split; [exact L1|split; [lia|exact F1]].
  - destruct (Hh e s1) as [l2 [L2 [R2 F2]]].
    exists (l2 ++ l1)%list; split; [rewrite L2, L1; apply app_assoc|split].
    + rewrite requests_app; lia.
    + intros q Hq; rewrite F2, F1 by exact Hq; reflexivity.
Qed.

Lemma eff_ret {A} n ws (a : A) :
  @effects_within Content AudioData _ n ws (ret (S:=state Content AudioData) a).
Proof. apply eff_pure; intros [fs lg ck]; exists []; split; reflexivity. Qed.

Lemma eff_raise {A} n ws e : @effects_within Content AudioData _ n ws (@raise (state Content AudioData) A e).
Proof. apply eff_pure; intros [fs lg ck]; exists []; split; reflexivity. Qed.

Lemma eff_print n ws s : @effects_within Content AudioData _ n ws (print s).
Proof. apply eff_pure; intros [fs lg ck]; exists [EvStdout (println s)]; split; reflexivity. Qed.

Lemma eff_prompt n ws s : @effects_within Content AudioData _ n ws (prompt s).
Proof. apply eff_pure; intros [fs lg ck]; exists [EvStdout s]; split; reflexivity. Qed.

Lemma eff_now n ws : effects_within n ws now.
Proof.
  intros st; exists []; split; [reflexivity|split; [cbn; lia|reflexivity]].
Qed.

Lemma eff_read_file n ws p : @effects_within Content AudioData _ n ws (read_file p).
Proof.
  apply eff_pure; intros [fs lg ck]; exists []; split; [|reflexivity].
  unfold read_file; cbn [st_fs]; destruct (fs p); reflexivity.
Qed.

Lemma eff_isfile n ws p : @effects_within Content AudioData _ n ws (isfile p).
Proof. apply eff_pure; intros [fs lg ck]; exists []; split; reflexivity. Qed.

Lemma eff_lift_sum {A} n ws (r : pyexc + A) : @effects_within Content AudioData _ n ws (lift_sum r).
Proof. destruct r; [apply eff_raise|apply eff_ret]. Qed.

Lemma eff_py_float_of_int n ws z : @effects_within Content AudioData _ n ws (py_float_of_int (S:=state Content AudioData) z).
Proof.
  unfold py_float_of_int; destruct (f64_of_Z z) as [| [] | |];
    first [apply eff_raise | apply eff_ret].
Qed.

Lemma eff_py_float_div n ws x y : @effects_within Content AudioData _ n ws (py_float_div (S:=state Content AudioData) x y).
Proof.
  unfold py_float_div; destruct y; first [apply eff_raise | apply eff_ret].
Qed.

Lemma eff_set_file n ws p d : In p ws -> @effects_within Content AudioData _ n ws (set_file p d).
Proof.
  intros Hp st; exists []; split; [reflexivity|split; [cbn; lia|]].
  intros q Hq; cbn.
  destruct (String.eqb_spec q p); [subst; contradiction|reflexivity].
Qed.

Lemma eff_open_w n ws p enc : In p ws -> @effects_within Content AudioData _ n ws (open_w p enc).
Proof.
  intros Hp; unfold open_w; destruct (can_open_w p);
    [now apply eff_set_file|apply eff_raise].
Qed.

Lemma eff_write_text n ws p t : In p ws -> @effects_within Content AudioData _ n ws (write_text p t).
Proof.
  intros Hp st; unfold write_text.
  destruct (st_fs st p) as [d|]; [destruct d as [enc t0|c]|].
  - exact (eff_set_file n ws p _ Hp st).
  - exists []; split; [reflexivity|split; [cbn; lia|reflexivity]].
  - exists []; split; [reflexivity|split; [cbn; lia|reflexivity]].
Qed.

Lemma eff_export n ws p seg : In p ws -> @effects_within Content AudioData _ n ws (export p seg).
Proof.
  intros Hp; unfold export; destruct (can_open_w p);
    [now apply eff_set_file|apply eff_raise].
Qed.

Lemma eff_recognize_google ws a : @effects_within Content AudioData _ 1 ws (recognize_google a).
Proof.
  intros st; exists [EvRequest a]; unfold recognize_google.
  destruct (google a); (split; [reflexivity|split; [cbn; lia|reflexivity]]).
Qed.

Ltac eff_step :=
  match goal with
  | |- forall _ : _, _ => intro
  | |- effects_within _ _ (bind _ _) => apply (eff_bind 0 _)
  | |- effects_within _ _ (try_except _ _) => apply (eff_try 0 _)
  | |- effects_within _ _ (ret _) => apply eff_ret
  | |- effects_within _ _ (raise _) => apply eff_raise
  | |- effects_within _ _ (print _) => apply eff_print
  | |- effects_within _ _ (prompt _) => apply eff_prompt
  | |- effects_within _ _ now => apply eff_now
  | |- effects_within _ _ (read_file _) => apply eff_read_file
  | |- effects_within _ _ (isfile _) => apply eff_isfile
  | |- effects_within _ _ (lift_sum _) => apply eff_lift_sum
  | |- effects_within _ _ (py_float_of_int _) => apply eff_py_float_of_int
  | |- effects_within _ _ (py_float_div _ _) => apply eff_py_float_div
  | |- effects_within _ _ (open_w _ _) => apply eff_open_w
  | |- effects_within _ _ (write_text _ _) => apply eff_write_text
  | |- effects_within _ _ (export _ _) => apply eff_export
  | |- effects_within _ _ (match ?x with pair _ _ => _ end) => destruct x
  | |- effects_within _ _ (if ?b then _ else _) => destruct b
  | |- In _ _ => simpl; tauto
  end.

Ltac eff_steps := repeat eff_step.

Lemma eff_get_audio_duration ws p : @effects_within Content AudioData _ 0 ws (get_audio_duration p).
Proof. unfold get_audio_duration; eff_steps. Qed.

Lemma eff_transcribe_audio ws p : @effects_within Content AudioData _ 1 ws (transcribe_audio p).
Proof.
  unfold transcribe_audio.
  apply (eff_bind 0 1); [apply eff_read_file|intros d].
  apply (eff_bind 0 1); [apply eff_lift_sum|intros a].
  apply (eff_bind 0 1); [apply eff_print|intros _].
  apply (eff_try 1 0); [|eff_steps].
  apply (eff_bind 0 1); [apply eff_print|intros _].
  apply (eff_bind 1 0); [apply eff_recognize_google|intros t; apply eff_ret].
Qed.

Lemma eff_save_transcription_report ws p dur txt :
  In output_file ws -> @effects_within Content AudioData _ 0 ws (save_transcription_report p dur txt).
Proof. intros Hw; unfold save_transcription_report; eff_steps. Qed.

Lemma eff_convert_step ws name ext :
  (String.eqb ext "mp3" = true -> In (py_replace name ".mp3" ".wav") ws) ->
  @effects_within Content AudioData _ 0 ws (convert_step name ext).
Proof.
  intros Hw; unfold convert_step.
  destruct (String.eqb ext "mp3"); [specialize (Hw eq_refl)|]; eff_steps.
Qed.

Lemma eff_process ws p :
  In output_file ws -> @effects_within Content AudioData _ 1 ws (process p).
Proof.
  intros Hw; unfold process.
  apply (eff_bind 0 1); [apply eff_get_audio_duration|intros dur].
  apply (eff_bind 0 1); [apply eff_print|intros _].
  apply (eff_bind 1 0); [apply eff_transcribe_audio|intros txt].
  eff_steps; now apply eff_save_transcription_report.
Qed.

Lemma eff_main line :
  effects_within 1
    (output_file ::
       (if String.eqb (file_ext_of (py_strip line)) "mp3"
        then [py_replace (py_strip line) ".mp3" ".wav"] else []))
    (main line).
Proof.
  unfold main.
  do 3 (apply (eff_bind 0 1); [eff_steps|intros ?]).
  apply (eff_bind 0 1); [apply eff_isfile|intros ok].
  destruct (negb ok); [eff_steps|].
  do 2 (apply (eff_bind 0 1); [apply eff_print|intros ?]).
  apply (eff_bind 0 1).
  - apply eff_convert_step; intros E; rewrite E; simpl; tauto.
  - intros [fp|]; [apply eff_process; simpl; tauto|apply eff_ret].
Qed.

(** ** Properties beyond the claims *)

(** A run of [main], whatever its outcome (normal return or an exception at any step), sends at most one request to the recognition service. *)
Theorem main_at_most_one_request (line : string) (st : state Content AudioData) :
  exists l, st_log (snd (main line st)) = (l ++ st_log st)%list /\
            (requests l <= 1)%nat.
Proof.
  destruct (eff_main line st) as [l [L [R _]]]; now exists l.
Qed.

(** A run of [main], whatever its outcome, changes no file other than [transcription_output.txt] and, when the tag is [mp3], the converted path; in particular the typed file of a [wav] run is never modified. *)
Theorem main_files_touched (line : string) (st : state Content AudioData) (q : string) :
  q <> output_file ->
  (file_ext_of (py_strip line) = "mp3" -> q <> py_replace (py_strip line) ".mp3" ".wav") ->
  st_fs (snd (main line st)) q = st_fs st q.
Proof.
  intros Ho Hw.
  destruct (eff_main line st) as [l [_ [_ F]]]; apply F.
  destruct (String.eqb_spec (file_ext_of (py_strip line)) "mp3") as [E|E];
    simpl; intuition.
Qed.

(** Once [sr.AudioFile] has read the file, [transcribe_audio] returns normally with the service's text, or its fallback message, and sends exactly one request; it changes no file. *)
Theorem transcribe_audio_one_request (p : string) (st : state Content AudioData) d a :
  st_fs st p = Some d -> sr_record d = inr a ->
  exists l, transcribe_audio p st =
              (Ret (transcript_of (google a)),
               mkState (st_fs st) (l ++ st_log st) (st_clock st)) /\
            requests l = 1%nat.
Proof.
  intros Hd Ha; destruct st as [fs log clk].
  unfold transcribe_audio.
  erewrite bind_ret by (apply read_file_some; exact Hd); cbv beta.
  erewrite bind_ret by (unfold lift_sum; rewrite Ha; reflexivity); cbv beta.
  step.
  unfold try_except, recognize_google, transcript_of; cbn.
  destruct (google a); cbn; eexists [_; _; _]; (split; [reflexivity|reflexivity]).
Qed.



(** A readable WAV header with no frames gives the float [0.0] (not the int [0] of the error path), with nothing printed. *)
Theorem get_audio_duration_no_frames (p : string) (st : state Content AudioData) d rate :
  st_fs st p = Some d -> wave_read d = inr (0%N, rate) ->
  f64_finite_nonzero (f64_of_Z (Z.of_N rate)) = true ->
  get_audio_duration p st = (Ret (PyFloat (S754_zero false)), st).
Proof.
  intros Hd Hw Hr.
  pose proof (f64_of_Z_N_unsigned rate) as Hu.
  destruct st as [fs log clk]; cbn [st_fs] in Hd.
  unfold get_audio_duration, try_except, bind, read_file, lift_sum,
    py_float_of_int, py_float_div, ret, raise; cbn [st_fs].
  rewrite Hd, Hw.
  destruct (f64_of_Z (Z.of_N rate)) as [| | |[] m e]; try discriminate.
  reflexivity.
Qed.



(** [main] ignores whitespace around the typed path: it behaves on [line] exactly as on [line.strip()]. *)
Theorem main_strips_input (line : string) (st : state Content AudioData) :
  main line st = main (py_strip line) st.
Proof. unfold main; now rewrite py_strip_idem. Qed.

End Proofs.

(** ** The tag and the WAV path *)

(** The format tag is always lower-case and never contains a ['.']. *)
Theorem file_ext_of_lower_no_dot (s : string) :
  py_lower (file_ext_of s) = file_ext_of s /\ occurs "." (file_ext_of s) = false.
Proof.
  unfold file_ext_of; split; [apply py_lower_idem|].
  rewrite occurs_dot_py_lower; unfold py_last.
  apply Forall_last; [apply py_split_dot_free|apply py_split_ne].
Qed.

(** Replacing [".mp3"] by [".wav"] keeps the length of the path. *)
Theorem wav_path_same_length (s : string) :
  String.length (py_replace s ".mp3" ".wav") = String.length s.
Proof. apply to_wav_length. Qed.

(** For a name that ends in the lower-case [".mp3"] and has no other [".mp3"], the WAV path is the sibling name ending in [".wav"]. *)
Theorem wav_path_sibling (b : string) :
  occurs ".mp3" b = false ->
  py_replace (b ++ ".mp3") ".mp3" ".wav" = b ++ ".wav".
Proof. apply to_wav_sibling. Qed.

(** ** The format tag *)

(** C9: the tag is the text after the last ['.'] of the whole typed
    string, lower-cased: a string without ['.'] is its own tag, anything
    before the last ['.'] (directories included) is ignored, so a file
    named [mp3] or [wav] gets that tag and ["a.b.wav"] gets ["wav"]. *)
Theorem file_ext_of_last_segment :
  (forall s, occurs "." s = false -> file_ext_of s = py_lower s) /\
  (forall a b, occurs "." b = false -> file_ext_of (a ++ "." ++ b) = py_lower b) /\
  file_ext_of "mp3" = "mp3" /\ file_ext_of "wav" = "wav" /\
  file_ext_of "MP3" = "mp3" /\ file_ext_of "a.b.wav" = "wav".
Proof.
  split; [|split].
  - intros s' Hs; unfold file_ext_of; now rewrite (py_split_no_sep "." s' Hs).
  - intros a b Hb; unfold file_ext_of.
    destruct (py_split_app_sep "." a b) as [pre [_ E]].
    change ("." ++ b) with (String "." b); rewrite E.
    unfold py_last; rewrite last_app_ne by apply py_split_ne.
    now rewrite (py_split_no_sep "." b Hb).
  - repeat split; vm_compute; reflexivity.
Qed.

Lemma file_ext_of_last_segment_witness :
  file_ext_of ("dir.v2/take" ++ "." ++ "Wav") = "wav".
Proof.
  apply (proj1 (proj2 file_ext_of_last_segment)); vm_compute; reflexivity.
Defined.

(** ** Runs of the model *)

(** C1: a [.wav] file no library can parse: [wave] fails, so the duration
    is [0], but [sr.AudioFile] fails too and its [ValueError] ends the run
    before any report is written. *)
Lemma corrupt_wav_no_report :
  fst (@get_audio_duration _ _ _ demo_hello "bad.wav" bad_state) = Ret (PyInt 0) /\
  (exists e, fst (@main _ _ _ demo_hello "bad.wav" bad_state) = Raise e) /\
  st_fs (snd (@main _ _ _ demo_hello "bad.wav" bad_state)) output_file = None.
Proof.
  split; [vm_compute; reflexivity|split; [eexists; vm_compute; reflexivity|]].
  vm_compute; reflexivity.
Qed.

Lemma main_unusable_header_witness :
  @header_usable _ _ _ demo_quota "talk.wav" talk_state = false /\
  exists st', @main _ _ _ demo_quota "talk.wav" talk_state = (Ret tt, st') /\
    st_fs st' output_file =
      Some (FText "utf-8"
              (spec_report "talk.wav" "0" (strftime_report (mkDatetime 2026 10 19 9 30 1))
                 "Google API request failed: quota exceeded")).
Proof.
  split; [vm_compute; reflexivity|].
  destruct (@main_unusable_header _ _ _ demo_quota "talk.wav" talk_state (FBlob DAiff)
              eq_refl eq_refl eq_refl) as [_ [Hok _]].
  destruct (Hok DAiff eq_refl eq_refl) as [st' [E [F _]]].
  exists st'; split; [exact E|]. rewrite F; reflexivity.
Defined.

(** C2: the service cannot resolve [clip.wav]. *)
Lemma transcribe_audio_fallbacks_witness :
  fst (@transcribe_audio _ _ _ demo_nomatch "clip.wav" clip_state) =
    Ret "Could not understand the audio." /\
  exists st', @process _ _ _ demo_nomatch "clip.wav" clip_state = (Ret tt, st').
Proof.
  destruct (@transcribe_audio_fallbacks _ _ _ demo_nomatch "clip.wav" clip_state
              (FBlob (DWav 107 40)) (DWav 107 40) eq_refl eq_refl) as [Hn _].
  destruct (Hn eq_refl) as [Ht Hw].
  split; [exact Ht|].
  destruct (Hw eq_refl) as [st' [E _]]; now exists st'.
Defined.

(** C3: [clip.wav] has 107 frames at 40 Hz. [107 / 40] is exactly [2.675],
    which rounds to [2.68]; the double nearest to [2.675] lies below it, and
    [round(107 / 40.0, 2)] is [2.67]. *)
Lemma clip_duration_not_exact_rounding :
  fst (@get_audio_duration _ _ _ demo_hello "clip.wav" clip_state) =
    Ret (PyFloat (f64_of_hundredths false 267)) /\
  spec_duration 107 40 = f64_of_hundredths false 268 /\
  fst (@get_audio_duration _ _ _ demo_hello "clip.wav" clip_state) <>
    Ret (PyFloat (spec_duration 107 40)).
Proof.
  split; [vm_compute; reflexivity|split; [vm_compute; reflexivity|]].
  vm_compute; discriminate.
Qed.

Lemma get_audio_duration_binary64_witness :
  fst (@get_audio_duration _ _ _ demo_hello "clip.wav" clip_state) =
    Ret (PyFloat (py_round2 (f64_div (f64_of_Z 107) (f64_of_Z 40)))).
Proof.
  destruct (@get_audio_duration_binary64 _ _ _ demo_hello "clip.wav" clip_state
              (FBlob (DWav 107 40)) 107 40 eq_refl eq_refl) as [E _];
    [vm_compute; reflexivity|vm_compute; reflexivity|].
  rewrite E; reflexivity.
Defined.

(** C4: [song.MP3] is an MP3 file whose name has an upper-case extension.
    Its tag is [mp3], but ["song.MP3".replace(".mp3", ".wav")] is
    ["song.MP3"]: the WAV data overwrites the input file, no [song.wav]
    is created, and the report names [song.MP3]. *)
Lemma song_MP3_overwritten :
  fst (@main _ _ _ demo_hello "song.MP3" song_state) = Ret tt /\
  st_fs (snd (@main _ _ _ demo_hello "song.MP3" song_state)) "song.MP3" =
    Some (FBlob (DWav 32000 16000)) /\
  st_fs (snd (@main _ _ _ demo_hello "song.MP3" song_state)) "song.wav" = None /\
  st_fs (snd (@main _ _ _ demo_hello "song.MP3" song_state)) output_file =
    Some (FText "utf-8"
            (spec_report "song.MP3" "2.0"
               (strftime_report (mkDatetime 2026 10 19 9 30 1)) "hello world")).
Proof. vm_compute; repeat split. Qed.

Lemma main_no_side_effects_witness :
  exists l, @main _ _ _ demo_hello "notes.flac" notes_state =
              (Ret tt, mkState (st_fs notes_state) (l ++ []) O) /\
            stdout_only l = true.
Proof.
  apply (@main_no_side_effects _ _ _ demo_hello "notes.flac" notes_state).
  right; split; [eexists; reflexivity|split; vm_compute; discriminate].
Defined.

Lemma main_report_written_witness :
  exists p dur k (a : demo_blob),
    st_fs (snd (@main _ _ _ demo_hello "sample.wav" sample_state)) output_file =
      Some (FText "utf-8" (spec_report p (@py_str_num _ _ _ demo_hello dur)
                             (strftime_report (mkDatetime 2026 10 19 9 30 (Z.of_nat k)))
                             (transcript_of (SrvText "hello world")))) /\
    p = "sample.wav".
Proof.
  assert (Hm : @main _ _ _ demo_hello "sample.wav" sample_state =
               (Ret tt, snd (@main _ _ _ demo_hello "sample.wav" sample_state)))
    by (vm_compute; reflexivity).
  destruct (@main_report_written _ _ _ demo_hello "sample.wav" sample_state _
              (FBlob (DWav 32000 16000)) eq_refl (or_introl eq_refl) Hm)
    as [p [dur [k [a [F [_ [Hp _]]]]]]].
  exists p, dur, k, a; split; [exact F|exact (Hp eq_refl)].
Defined.

Lemma main_wav_same_path_witness :
  @convert_step _ _ _ demo_hello "sample.wav" "wav" sample_state =
    (Ret (Some "sample.wav"), sample_state) /\
  exists l, stdout_only l = true /\
    @main _ _ _ demo_hello "sample.wav" sample_state =
      @process _ _ _ demo_hello "sample.wav" (mkState (st_fs sample_state) (l ++ []) O).
Proof.
  exact (@main_wav_same_path _ _ _ demo_hello "sample.wav" sample_state
           (FBlob (DWav 32000 16000)) eq_refl eq_refl).
Defined.

(** C10: the first occurrence only would leave the second [".mp3"]. *)
Lemma replace_every_occurrence :
  py_replace "d.mp3/a.mp3" ".mp3" ".wav" = "d.wav/a.wav" /\
  replace_first ".mp3" ".wav" "d.mp3/a.mp3" = "d.wav/a.mp3" /\
  py_replace "d.mp3/a.mp3" ".mp3" ".wav" <> replace_first ".mp3" ".wav" "d.mp3/a.mp3".
Proof. split; [vm_compute; reflexivity|split; [vm_compute; reflexivity|]]. vm_compute; discriminate. Qed.

Lemma main_mp3_output_path_witness :
  py_replace "song.MP3" ".mp3" ".wav" = "song.MP3" /\
  exists st2, @main _ _ _ demo_hello "song.MP3" song_state =
                @process _ _ _ demo_hello "song.MP3" st2 /\
              st_fs st2 "song.MP3" = Some (FBlob (DWav 32000 16000)).
Proof.
  destruct (@main_mp3_output_path _ _ _ demo_hello "song.MP3" song_state
              (FBlob (DMp3 32000 16000)) (32000, 16000)%N eq_refl eq_refl eq_refl eq_refl)
    as [_ [Hid [st2 [E [F _]]]]].
  split; [apply Hid; vm_compute; reflexivity|].
  exists st2; split; [exact E|exact F].
Defined.

(** ** Instances of the properties beyond the claims *)

Lemma main_files_touched_witness :
  st_fs (snd (@main _ _ _ demo_hello "sample.wav" sample_state)) "sample.wav" =
    Some (FBlob (DWav 32000 16000)).
Proof.
  rewrite (@main_files_touched _ _ _ demo_hello "sample.wav" sample_state "sample.wav").
  - reflexivity.
  - discriminate.
  - intros H; vm_compute in H; discriminate H.
Defined.

Lemma transcribe_audio_one_request_witness :
  exists l, @transcribe_audio _ _ _ demo_hello "clip.wav" clip_state =
              (Ret "hello world", mkState (st_fs clip_state) (l ++ []) O) /\
            requests l = 1%nat.
Proof.
  exact (@transcribe_audio_one_request _ _ _ demo_hello "clip.wav" clip_state
           (FBlob (DWav 107 40)) (DWav 107 40) eq_refl eq_refl).
Defined.



Lemma get_audio_duration_no_frames_witness :
  @get_audio_duration _ _ _ demo_hello "silence.wav" empty_wav_state =
    (Ret (PyFloat (S754_zero false)), empty_wav_state).
Proof.
  apply (@get_audio_duration_no_frames _ _ _ demo_hello "silence.wav" empty_wav_state
           (FBlob (DWav 0 16000)) 16000); vm_compute; reflexivity.
Defined.



Lemma wav_path_sibling_witness :
  py_replace ("music/take 1" ++ ".mp3") ".mp3" ".wav" = "music/take 1" ++ ".wav".
Proof. apply wav_path_sibling; vm_compute; reflexivity. Defined.
